(** * Abstract factory of furniture: the program and its properties

    A shallow embedding of [Creational/Abstract_factory.py].

    - A Python method is a computation of the monad [Py]: it runs on the text
      written to standard output so far, and either returns a value or raises,
      together with the text written when it stops.
    - The three abstract base classes ([FurnitureFactory], [Chair], [Sofa])
      are interfaces: type classes whose methods are the [@abstractmethod]s.
    - A concrete class is a type with one constructor (the classes declare no
      attribute and no [__init__], so an instance carries no data), a module
      holding its methods under their source names, and an instance of the
      interface it derives from. *)

From Stdlib Require Import String Ascii List Bool Arith Lia.
Import ListNotations.
Open Scope string_scope.

(** ** The monad of Python computations *)

(** What has been written to standard output. *)
Definition stdout := string.

(** A raised exception, by the name of its class. *)
Inductive exn : Type :=
| Exception (name : string).

Inductive outcome (A : Type) : Type :=
| Returns (a : A)
| Raises (e : exn).
Arguments Returns {A} a.
Arguments Raises {A} e.

Definition Py (A : Type) : Type := stdout -> outcome A * stdout.

Definition ret {A} (a : A) : Py A := fun out => (Returns a, out).

Definition bind {A B} (m : Py A) (k : A -> Py B) : Py B :=
  fun out =>
    match m out with
    | (Returns a, out') => k a out'
    | (Raises e, out') => (Raises e, out')
    end.

Definition raise {A} (e : exn) : Py A := fun out => (Raises e, out).

Notation "x <- m ;; k" := (bind m (fun x => k))
  (at level 61, m at next level, right associativity).
Notation "m ;; k" := (bind m (fun _ => k))
  (at level 61, right associativity).

(** The line feed that [print] puts after its argument. *)
Definition LF : string := String (ascii_of_nat 10) "".

(** [print(s)] for a string [s]: writes [s] and a line feed. *)
Definition print (s : string) : Py unit :=
  fun out => (Returns tt, out ++ s ++ LF).

(** ** The interfaces *)

(** [class Chair(ABC)], with the abstract method [can_sit(self)]. *)
Class Chair (T : Type) : Type := {
  Chair_can_sit : T -> Py string
}.

(** [class Sofa(ABC)], with the abstract methods [can_sleep(self)] and
    [can_sit(self, collaborator: Chair)]; the collaborator is any chair. *)
Class Sofa (T : Type) : Type := {
  Sofa_can_sleep : T -> Py string;
  Sofa_can_sit : T -> forall {C : Type} `{Chair C}, C -> Py string
}.

(** [class FurnitureFactory(ABC)], with the abstract methods
    [create_chair(self)] and [create_sofa(self)]; what they return is a chair
    and a sofa of classes chosen by the concrete factory. *)
Class FurnitureFactory (F : Type) : Type := {
  chair_class : Type;
  sofa_class : Type;
  chair_class_Chair :: Chair chair_class;
  sofa_class_Sofa :: Sofa sofa_class;
  create_chair : F -> Py chair_class;
  create_sofa : F -> Py sofa_class
}.
Arguments chair_class F {_}.
Arguments sofa_class F {_}.

(** ** The concrete products *)

Module ClassicalChair.
(** [ClassicalChair()] *)
Inductive t : Type := new.

Definition can_sit (self : t) : Py string :=
  ret "You can sit on it from Classical Chair".
End ClassicalChair.

#[export] Instance ClassicalChair_Chair : Chair ClassicalChair.t :=
  {| Chair_can_sit := ClassicalChair.can_sit |}.

Module ModernChair.
(** [ModernChair()] *)
Inductive t : Type := new.

Definition can_sit (self : t) : Py string :=
  ret "You can sit on it from Modern Chair".
End ModernChair.

#[export] Instance ModernChair_Chair : Chair ModernChair.t :=
  {| Chair_can_sit := ModernChair.can_sit |}.

Module ClassicalSofa.
(** [ClassicalSofa()] *)
Inductive t : Type := new.

Definition can_sit (self : t) {C : Type} `{Chair C} (collaborator : C)
  : Py string :=
  result <- Chair_can_sit collaborator ;;
  ret ("You can sit on it from Classical sofa, with collabortaor ("
         ++ result ++ ")").

Definition can_sleep (self : t) : Py string :=
  ret "you can sleep from Classical sofa".
End ClassicalSofa.

#[export] Instance ClassicalSofa_Sofa : Sofa ClassicalSofa.t :=
  {| Sofa_can_sleep := ClassicalSofa.can_sleep;
     Sofa_can_sit := @ClassicalSofa.can_sit |}.

Module ModernSofa.
(** [ModernSofa()] *)
Inductive t : Type := new.

Definition can_sit (self : t) {C : Type} `{Chair C} (collaborator : C)
  : Py string :=
  result <- Chair_can_sit collaborator ;;
  ret ("You can sit on it from Modern sofa, with collaborator ("
         ++ result ++ ")").

Definition can_sleep (self : t) : Py string :=
  ret "You can sleep from Modern sofa".
End ModernSofa.

#[export] Instance ModernSofa_Sofa : Sofa ModernSofa.t :=
  {| Sofa_can_sleep := ModernSofa.can_sleep;
     Sofa_can_sit := @ModernSofa.can_sit |}.

(** ** The concrete factories *)

Module ClassicalFurniture.
(** [ClassicalFurniture()] *)
Inductive t : Type := new.

Definition create_chair (self : t) : Py ClassicalChair.t :=
  ret ClassicalChair.new.

Definition create_sofa (self : t) : Py ClassicalSofa.t :=
  ret ClassicalSofa.new.
End ClassicalFurniture.

#[export] Instance ClassicalFurniture_Factory
  : FurnitureFactory ClassicalFurniture.t :=
  {| create_chair := ClassicalFurniture.create_chair;
     create_sofa := ClassicalFurniture.create_sofa |}.

Module ModernFuniture.
(** [ModernFuniture()] *)
Inductive t : Type := new.

Definition create_chair (self : t) : Py ModernChair.t :=
  ret ModernChair.new.

Definition create_sofa (self : t) : Py ModernSofa.t :=
  ret ModernSofa.new.
End ModernFuniture.

#[export] Instance ModernFuniture_Factory
  : FurnitureFactory ModernFuniture.t :=
  {| create_chair := ModernFuniture.create_chair;
     create_sofa := ModernFuniture.create_sofa |}.

(** ** The client *)

(** [client_code(factory: FurnitureFactory)]; an f-string that holds one
    string and nothing else is that string. *)
Definition client_code {F : Type} `{FurnitureFactory F} (factory : F)
  : Py unit :=
  chair <- create_chair factory ;;
  sofa <- create_sofa factory ;;
  s <- Sofa_can_sleep sofa ;;
  print s ;;
  s <- Sofa_can_sit sofa chair ;;
  print s.

(** The body of [if __name__ == '__main__']. *)
Definition main : Py unit :=
  print "Client: Testing client code with the first factory type" ;;
  client_code ClassicalFurniture.new ;;
  print LF ;;
  print "Client: Testing the same client code with the second factory type" ;;
  client_code ModernFuniture.new.

(** ** Reading strings and output

    The vocabulary of the properties: what Python tests with [startswith],
    [in] and [splitlines], and the number of places at which a string occurs
    in another. *)

(** [s.startswith(p)] *)
Fixpoint startswith (s p : string) {struct p} : bool :=
  match p, s with
  | EmptyString, _ => true
  | String _ _, EmptyString => false
  | String a p', String b s' => Ascii.eqb a b && startswith s' p'
  end.

(** [sub in s] *)
Fixpoint contains (s sub : string) : bool :=
  startswith s sub ||
  match s with
  | EmptyString => false
  | String _ s' => contains s' sub
  end.


(** [sub] is a contiguous part of [s]. *)
Definition Substring (sub s : string) : Prop :=
  exists pre post, s = pre ++ sub ++ post.


(** The lines of a text, as [splitlines] gives them when the only line
    boundary in the text is the line feed; [cur] is the line being read. *)
Fixpoint lines_from (cur s : string) : list string :=
  match s with
  | EmptyString => if String.eqb cur "" then [] else [cur]
  | String c s' =>
      if Ascii.eqb c (ascii_of_nat 10)
      then cur :: lines_from "" s'
      else lines_from (cur ++ String c "") s'
  end.

Definition splitlines (s : string) : list string := lines_from "" s.

(** What a sofa's sentence holds between its first opening parenthesis and
    the closing parenthesis that ends it. *)
Fixpoint after_paren (s : string) : option string :=
  match s with
  | EmptyString => None
  | String c s' => if Ascii.eqb c "("%char then Some s' else after_paren s'
  end.

Fixpoint strip_closing (s : string) : option string :=
  match s with
  | EmptyString => None
  | String c EmptyString => if Ascii.eqb c ")"%char then Some "" else None
  | String c s' => option_map (String c) (strip_closing s')
  end.

Definition embedded (s : string) : option string :=
  match after_paren s with
  | Some rest => strip_closing rest
  | None => None
  end.

(** ** Shapes of computations *)

(** [m] returns [v] and writes nothing, whatever has been written before. *)
Definition returns {A} (m : Py A) (v : A) : Prop :=
  forall out, m out = (Returns v, out).

(** Two runs of [m] end the same way, whatever the state they start in. *)
Definition deterministic {A} (m : Py A) : Prop :=
  forall out1 out2, fst (m out1) = fst (m out2).

(** [m] leaves the state as it found it. *)
Definition keeps_state {A} (m : Py A) : Prop :=
  forall out, snd (m out) = out.


(** ** The expressions the properties are about *)

(** [F.create_chair().can_sit()] *)
Definition chair_sentence {F : Type} `{FurnitureFactory F} (factory : F)
  : Py string :=
  chair <- create_chair factory ;;
  Chair_can_sit chair.

(** [F.create_sofa().can_sleep()] *)
Definition sofa_sleep_sentence {F : Type} `{FurnitureFactory F} (factory : F)
  : Py string :=
  sofa <- create_sofa factory ;;
  Sofa_can_sleep sofa.

(** [F.create_sofa().can_sit(F.create_chair())] *)
Definition sofa_sit_sentence {F : Type} `{FurnitureFactory F} (factory : F)
  : Py string :=
  sofa <- create_sofa factory ;;
  chair <- create_chair factory ;;
  Sofa_can_sit sofa chair.

(** The variant a concrete class belongs to, as its name says. *)
Inductive variant : Type := Classical | Modern.

Definition variant_name (v : variant) : string :=
  match v with
  | Classical => "Classical"
  | Modern => "Modern"
  end.

Class OfVariant (T : Type) : Type := variant_of : variant.
Arguments variant_of T {_}.

#[export] Instance ClassicalFurniture_variant : OfVariant ClassicalFurniture.t := Classical.
#[export] Instance ClassicalChair_variant : OfVariant ClassicalChair.t := Classical.
#[export] Instance ClassicalSofa_variant : OfVariant ClassicalSofa.t := Classical.
#[export] Instance ModernFuniture_variant : OfVariant ModernFuniture.t := Modern.
#[export] Instance ModernChair_variant : OfVariant ModernChair.t := Modern.
#[export] Instance ModernSofa_variant : OfVariant ModernSofa.t := Modern.

(** ** Chairs of other classes

    [Chair] is open to further subclasses, and a sofa takes any of them.
    Two stand for them where a property is tried: one that answers as the
    classical chair does, and one whose [can_sit] raises. *)
Definition another_chair : Chair unit :=
  {| Chair_can_sit := fun _ => ret "You can sit on it from Classical Chair" |}.

Definition broken_chair : Chair unit :=
  {| Chair_can_sit := fun _ => raise (Exception "RuntimeError") |}.



(** ** Factories of other classes

    [FurnitureFactory] is open to further subclasses as well, and
    [client_code] takes any of them.  Two stand for them where its failures
    are tried: one whose chair raises when sat on, and one that raises
    instead of making a chair. *)
Definition broken_chair_furniture : FurnitureFactory unit :=
  {| chair_class := unit;
     sofa_class := ClassicalSofa.t;
     chair_class_Chair := broken_chair;
     sofa_class_Sofa := ClassicalSofa_Sofa;
     create_chair := fun _ => ret tt;
     create_sofa := fun _ => ret ClassicalSofa.new |}.

Definition failing_furniture : FurnitureFactory unit :=
  {| chair_class := ClassicalChair.t;
     sofa_class := ClassicalSofa.t;
     chair_class_Chair := ClassicalChair_Chair;
     sofa_class_Sofa := ClassicalSofa_Sofa;
     create_chair := fun _ => raise (Exception "RuntimeError");
     create_sofa := fun _ => ret ClassicalSofa.new |}.

(** What the properties say of a sofa, for any class of sofas. *)
Section SofaProperties.
Context {S : Type} `{Sofa S} (sofa : S).



End SofaProperties.

(** What the properties say of a factory, for any class of factories. *)
Section FactoryProperties.
Context {F : Type} `{FurnitureFactory F} (factory : F).

(** The sentence of the factory's sofa sat on with the factory's chair
    holds the sentence of the factory's chair. *)
Definition embeds_paired_chair : Prop :=
  exists s r,
    returns (sofa_sit_sentence factory) s /\
    returns (chair_sentence factory) r /\
    Substring r s.

(** The sentence of the factory's chair holds [name] and "Chair". *)
Definition chair_names (name : string) : Prop :=
  exists r,
    returns (chair_sentence factory) r /\
    Substring name r /\ Substring "Chair" r.

(** The sleeping sentence of the factory's sofa holds [name] and "sofa". *)
Definition sofa_names (name : string) : Prop :=
  exists r,
    returns (sofa_sleep_sentence factory) r /\
    Substring name r /\ Substring "sofa" r.
End FactoryProperties.

(** A computation that ends the same way from every state and changes
    none. *)
Definition pure {A} (m : Py A) : Prop :=
  deterministic m /\ keeps_state m.

(** * Properties *)

(** ** Strings *)

Lemma append_assoc (a b c : string) : (a ++ b) ++ c = a ++ b ++ c.
Proof.
  induction a as [|x a IH]; simpl; [reflexivity | now rewrite IH].
Qed.

Lemma startswith_spec (s p : string) :
  startswith s p = true <-> exists post, s = p ++ post.
Proof.
  revert s; induction p as [|a p IH]; intros s; simpl.
  - split; [intros _; now exists s | reflexivity].
  - destruct s as [|b s].
    + split; [discriminate | intros [post E]; discriminate].
    + rewrite andb_true_iff, Ascii.eqb_eq, IH. split.
      * intros [-> [post ->]]. now exists post.
      * intros [post E]. injection E as -> ->. split; [reflexivity | now exists post].
Qed.

Lemma contains_spec (s sub : string) :
  contains s sub = true <-> Substring sub s.
Proof.
  unfold Substring. split.
  - induction s as [|c s IH]; simpl; rewrite orb_true_iff.
    + intros [Hp | Hf]; [|discriminate].
      apply startswith_spec in Hp as [post E]. now exists "", post.
    + intros [Hp | Ht].
      * apply startswith_spec in Hp as [post E]. now exists "", post.
      * destruct (IH Ht) as (pre & post & ->). now exists (String c pre), post.
  - intros (pre & post & ->).
    induction pre as [|c pre IH]; simpl.
    + assert (Hp : startswith (sub ++ post) sub = true)
        by (apply startswith_spec; now exists post).
      destruct (sub ++ post); simpl; rewrite orb_true_iff; now left.
    + simpl in IH. rewrite IH. apply orb_true_r.
Qed.

Lemma contains_false (s sub : string) :
  contains s sub = false -> ~ Substring sub s.
Proof.
  intros Hf Hs. apply contains_spec in Hs. congruence.
Qed.


(** ** Computations *)


(** The output is state: [print] changes it. *)
Lemma print_writes (s : string) : ~ keeps_state (print s).
Proof.
  intros Hk. specialize (Hk ""). cbn in Hk.
  destruct s; discriminate Hk.
Qed.


(** The client is not pure: it writes. *)
Lemma client_code_writes : ~ pure (client_code ClassicalFurniture.new).
Proof.
  intros [_ Hk]. specialize (Hk ""). discriminate Hk.
Qed.

(** ** The sofas' [can_sit], for a collaborator of any class of chairs *)

Section AnyCollaborator.
Context {C : Type} `{Chair C} (collaborator : C).

Lemma ClassicalSofa_can_sit_returns self out r out' :
  Chair_can_sit collaborator out = (Returns r, out') ->
  ClassicalSofa.can_sit self collaborator out =
    (Returns ("You can sit on it from Classical sofa, with collabortaor ("
                ++ r ++ ")"), out').
Proof.
  intros Hr. unfold ClassicalSofa.can_sit, bind. now rewrite Hr.
Qed.

Lemma ModernSofa_can_sit_returns self out r out' :
  Chair_can_sit collaborator out = (Returns r, out') ->
  ModernSofa.can_sit self collaborator out =
    (Returns ("You can sit on it from Modern sofa, with collaborator ("
                ++ r ++ ")"), out').
Proof.
  intros Hr. unfold ModernSofa.can_sit, bind. now rewrite Hr.
Qed.

(** A collaborator that raises makes the sofa raise the same. *)
Lemma sofa_can_sit_raises (sofa1 : ClassicalSofa.t) (sofa2 : ModernSofa.t)
      out e out' :
  Chair_can_sit collaborator out = (Raises e, out') ->
  ClassicalSofa.can_sit sofa1 collaborator out = (Raises e, out') /\
  ModernSofa.can_sit sofa2 collaborator out = (Raises e, out').
Proof.
  intros Hr. unfold ClassicalSofa.can_sit, ModernSofa.can_sit, bind.
  now rewrite Hr.
Qed.

End AnyCollaborator.

(** With a chair that raises, neither sofa returns. *)
Example broken_chair_breaks_can_sit :
  @ClassicalSofa.can_sit ClassicalSofa.new unit broken_chair tt "" =
    (Raises (Exception "RuntimeError"), "") /\
  @ModernSofa.can_sit ModernSofa.new unit broken_chair tt "" =
    (Raises (Exception "RuntimeError"), "").
Proof. split; reflexivity. Qed.

(** The whole run of the program. *)
Example main_output :
  splitlines (snd (main "")) =
    [ "Client: Testing client code with the first factory type";
      "you can sleep from Classical sofa";
      "You can sit on it from Classical sofa, with collabortaor (You can sit on it from Classical Chair)";
      ""; "";
      "Client: Testing the same client code with the second factory type";
      "You can sleep from Modern sofa";
      "You can sit on it from Modern sofa, with collaborator (You can sit on it from Modern Chair)" ].
Proof. reflexivity. Qed.

Lemma ClassicalChair_can_sit_returns (self : ClassicalChair.t) :
  returns (Chair_can_sit self) "You can sit on it from Classical Chair".
Proof. intros out. reflexivity. Qed.

Lemma ModernChair_can_sit_returns (self : ModernChair.t) :
  returns (Chair_can_sit self) "You can sit on it from Modern Chair".
Proof. intros out. reflexivity. Qed.

(** Deciding [Substring] on given strings. *)
Ltac holds := apply contains_spec; reflexivity.
Ltac holds_not := apply contains_false; reflexivity.

(** ** The factories *)

(** C1. Each concrete factory constructs products of its own variant:
    [ClassicalFurniture.create_chair()] returns a [ClassicalChair] and
    [ClassicalFurniture.create_sofa()] a [ClassicalSofa],
    [ModernFuniture.create_chair()] returns a [ModernChair] and
    [ModernFuniture.create_sofa()] a [ModernSofa]; so the chair and the sofa
    of a factory are of one variant, the factory's. *)
Theorem factories_build_their_own_variant :
  (forall self : ClassicalFurniture.t,
      (exists chair : ClassicalChair.t, returns (create_chair self) chair) /\
      (exists sofa : ClassicalSofa.t, returns (create_sofa self) sofa)) /\
  (forall self : ModernFuniture.t,
      (exists chair : ModernChair.t, returns (create_chair self) chair) /\
      (exists sofa : ModernSofa.t, returns (create_sofa self) sofa)) /\
  (variant_of (chair_class ClassicalFurniture.t) = Classical /\
   variant_of (sofa_class ClassicalFurniture.t) = Classical /\
   variant_of ClassicalFurniture.t = Classical) /\
  (variant_of (chair_class ModernFuniture.t) = Modern /\
   variant_of (sofa_class ModernFuniture.t) = Modern /\
   variant_of ModernFuniture.t = Modern).
Proof.
  split; [|split; [|split]].
  - intros self. split.
    + exists ClassicalChair.new. intros out. reflexivity.
    + exists ClassicalSofa.new. intros out. reflexivity.
  - intros self. split.
    + exists ModernChair.new. intros out. reflexivity.
    + exists ModernSofa.new. intros out. reflexivity.
  - repeat split.
  - repeat split.
Qed.

(** ** The client *)

(** C2. [client_code(ClassicalFurniture())] writes two lines and no more:
    first "you can sleep from Classical sofa", then "You can sit on it from
    Classical sofa, with collabortaor (You can sit on it from Classical
    Chair)". *)
Theorem client_code_classical_output :
  (forall out,
      client_code ClassicalFurniture.new out =
        (Returns tt,
         out ++ "you can sleep from Classical sofa" ++ LF
             ++ "You can sit on it from Classical sofa, with collabortaor (You can sit on it from Classical Chair)" ++ LF)) /\
  splitlines (snd (client_code ClassicalFurniture.new "")) =
    [ "you can sleep from Classical sofa";
      "You can sit on it from Classical sofa, with collabortaor (You can sit on it from Classical Chair)" ].
Proof.
  split; [|reflexivity].
  intros out. cbv [client_code bind print]. cbn.
  now rewrite append_assoc.
Qed.

(** C3. [client_code(ModernFuniture())] writes two lines and no more: first
    "You can sleep from Modern sofa", then "You can sit on it from Modern
    sofa, with collaborator (You can sit on it from Modern Chair)". *)
Theorem client_code_modern_output :
  (forall out,
      client_code ModernFuniture.new out =
        (Returns tt,
         out ++ "You can sleep from Modern sofa" ++ LF
             ++ "You can sit on it from Modern sofa, with collaborator (You can sit on it from Modern Chair)" ++ LF)) /\
  splitlines (snd (client_code ModernFuniture.new "")) =
    [ "You can sleep from Modern sofa";
      "You can sit on it from Modern sofa, with collaborator (You can sit on it from Modern Chair)" ].
Proof.
  split; [|reflexivity].
  intros out. cbv [client_code bind print]. cbn.
  now rewrite append_assoc.
Qed.

(** ** The sentences of paired products *)

(** C4. For each factory [F], the string that
    [F.create_sofa().can_sit(F.create_chair())] returns holds the string that
    [F.create_chair().can_sit()] returns, as a contiguous part. *)
Theorem paired_sofa_embeds_chair_sentence :
  (forall F : ClassicalFurniture.t, embeds_paired_chair F) /\
  (forall F : ModernFuniture.t, embeds_paired_chair F).
Proof.
  split; intros F.
  - exists "You can sit on it from Classical sofa, with collabortaor (You can sit on it from Classical Chair)",
           "You can sit on it from Classical Chair".
    repeat split; try (intros out; reflexivity).
    now exists "You can sit on it from Classical sofa, with collabortaor (", ")".
  - exists "You can sit on it from Modern sofa, with collaborator (You can sit on it from Modern Chair)",
           "You can sit on it from Modern Chair".
    repeat split; try (intros out; reflexivity).
    now exists "You can sit on it from Modern sofa, with collaborator (", ")".
Qed.

(** C6. For each factory [F], the string that [F.create_chair().can_sit()]
    returns holds the name of [F]'s variant, "Classical" or "Modern", and
    "Chair". *)
Theorem chair_sentence_names_variant :
  (forall F : ClassicalFurniture.t, chair_names F "Classical") /\
  (forall F : ModernFuniture.t, chair_names F "Modern").
Proof.
  split; intros F.
  - exists "You can sit on it from Classical Chair".
    split; [intros out; reflexivity | split; holds].
  - exists "You can sit on it from Modern Chair".
    split; [intros out; reflexivity | split; holds].
Qed.

(** C7. For each factory [F], the string that [F.create_sofa().can_sleep()]
    returns holds the name of [F]'s variant, "Classical" or "Modern", and
    "sofa". *)
Theorem sofa_sleep_sentence_names_variant :
  (forall F : ClassicalFurniture.t, sofa_names F "Classical") /\
  (forall F : ModernFuniture.t, sofa_names F "Modern").
Proof.
  split; intros F.
  - exists "you can sleep from Classical sofa".
    split; [intros out; reflexivity | split; holds].
  - exists "You can sleep from Modern sofa".
    split; [intros out; reflexivity | split; holds].
Qed.

(** ** The sofas' [can_sit] *)

(** C5. [ClassicalSofa.can_sit(collaborator)] calls [collaborator.can_sit()]
    and puts what it returns between "You can sit on it from Classical sofa,
    with collabortaor (" and ")": the word before the parenthesis is spelt
    "collabortaor", so that the string returned is never the one with
    "collaborator" in its place. *)
Theorem ClassicalSofa_can_sit_misspells_collaborator
        (C : Type) (I : Chair C) (self : ClassicalSofa.t) (c : C)
        (out : stdout) (r : string) (out' : stdout) :
  Chair_can_sit c out = (Returns r, out') ->
  ClassicalSofa.can_sit self c out =
    (Returns ("You can sit on it from Classical sofa, with collabortaor ("
                ++ r ++ ")"), out') /\
  ClassicalSofa.can_sit self c out <>
    (Returns ("You can sit on it from Classical sofa, with collaborator ("
                ++ r ++ ")"), out').
Proof.
  intros Hr.
  rewrite (ClassicalSofa_can_sit_returns c self out r out' Hr).
  split; [reflexivity|].
  cbn. intros E. discriminate E.
Qed.

Lemma ClassicalSofa_can_sit_misspells_collaborator_witness :
  ClassicalSofa.can_sit ClassicalSofa.new ClassicalChair.new "" =
    (Returns "You can sit on it from Classical sofa, with collabortaor (You can sit on it from Classical Chair)", "") /\
  ClassicalSofa.can_sit ClassicalSofa.new ClassicalChair.new "" <>
    (Returns "You can sit on it from Classical sofa, with collaborator (You can sit on it from Classical Chair)", "").
Proof.
  apply (ClassicalSofa_can_sit_misspells_collaborator
           ClassicalChair.t _ ClassicalSofa.new ClassicalChair.new ""
           "You can sit on it from Classical Chair" "").
  reflexivity.
Defined.

(** C8. A chair of one variant given to a sofa of the other is taken:
    [ModernSofa.can_sit(ClassicalChair())] and
    [ClassicalSofa.can_sit(ModernChair())] return, and what the returned
    string holds in parentheses is the chair's own sentence, which names the
    chair's variant and not the sofa's. *)
Theorem cross_variant_collaboration :
  (forall (sofa : ModernSofa.t) (chair : ClassicalChair.t),
      exists s e,
        returns (Sofa_can_sit sofa chair) s /\
        embedded s = Some e /\
        returns (Chair_can_sit chair) e /\
        Substring "Classical" e /\ ~ Substring "Modern" e) /\
  (forall (sofa : ClassicalSofa.t) (chair : ModernChair.t),
      exists s e,
        returns (Sofa_can_sit sofa chair) s /\
        embedded s = Some e /\
        returns (Chair_can_sit chair) e /\
        Substring "Modern" e /\ ~ Substring "Classical" e).
Proof.
  split; intros sofa chair.
  - exists "You can sit on it from Modern sofa, with collaborator (You can sit on it from Classical Chair)",
           "You can sit on it from Classical Chair".
    split; [intros out; reflexivity|].
    split; [reflexivity|].
    split; [apply ClassicalChair_can_sit_returns|].
    split; [holds | holds_not].
  - exists "You can sit on it from Classical sofa, with collabortaor (You can sit on it from Modern Chair)",
           "You can sit on it from Modern Chair".
    split; [intros out; reflexivity|].
    split; [reflexivity|].
    split; [apply ModernChair_can_sit_returns|].
    split; [holds | holds_not].
Qed.

(** ** Purity *)


(** ** What a sofa takes from its collaborator *)




(** * Further properties *)

(** ** Lines *)

Lemma contains_LF_cons (c : ascii) (s : string) :
  contains (String c s) LF = false ->
  Ascii.eqb c (ascii_of_nat 10) = false /\ contains s LF = false.
Proof.
  cbn [contains startswith LF]. intros Hc.
  apply orb_false_iff in Hc as [Hh Ht].
  rewrite andb_false_iff in Hh. destruct Hh as [Hh | Hh].
  - split; [|exact Ht]. now rewrite Ascii.eqb_sym.
  - destruct s; discriminate Hh.
Qed.

(** A text without line feed, followed by a line feed, is one line. *)
Lemma lines_from_line (s cur rest : string) :
  contains s LF = false ->
  lines_from cur (s ++ LF ++ rest) = (cur ++ s) :: lines_from "" rest.
Proof.
  revert cur. induction s as [|c s IH]; intros cur Hs.
  - cbn. f_equal. clear. induction cur as [|x cur IH]; cbn; congruence.
  - apply contains_LF_cons in Hs as [Hc Hs].
    cbn [append lines_from]. rewrite Hc.
    change (s ++ String (ascii_of_nat 10) rest) with (s ++ LF ++ rest).
    rewrite (IH _ Hs). f_equal. now rewrite append_assoc.
Qed.

Lemma length_append (a b : string) :
  String.length (a ++ b) = String.length a + String.length b.
Proof.
  induction a as [|x a IH]; cbn; [reflexivity | now rewrite IH].
Qed.

Lemma append_inj_r (a b t : string) : a ++ t = b ++ t -> a = b.
Proof.
  intros E.
  assert (L : String.length a = String.length b).
  { apply (f_equal String.length) in E.
    rewrite !length_append in E. lia. }
  revert b E L. induction a as [|x a IH]; intros [|y b] E L;
    try discriminate L; [reflexivity|].
  cbn in E. injection E as -> E. f_equal. apply IH; [exact E|].
  now injection L.
Qed.

(** ** The whole program *)

(** X1. The body of [if __name__ == '__main__'] returns, and adds eight lines
    to what has been written: a heading and the two lines of the classical
    factory, two empty lines ([print("\n")] writes two line feeds), a heading
    and the two lines of the modern factory. *)
Theorem main_writes_eight_lines :
  (forall out,
      main out =
        (Returns tt,
         out ++ "Client: Testing client code with the first factory type" ++ LF
             ++ "you can sleep from Classical sofa" ++ LF
             ++ "You can sit on it from Classical sofa, with collabortaor (You can sit on it from Classical Chair)" ++ LF
             ++ LF ++ LF
             ++ "Client: Testing the same client code with the second factory type" ++ LF
             ++ "You can sleep from Modern sofa" ++ LF
             ++ "You can sit on it from Modern sofa, with collaborator (You can sit on it from Modern Chair)" ++ LF)) /\
  List.length (splitlines (snd (main ""))) = 8 /\
  nth_error (splitlines (snd (main ""))) 3 = Some "" /\
  nth_error (splitlines (snd (main ""))) 4 = Some "".
Proof.
  split; [|repeat split].
  intros out. cbv [main client_code bind print]. cbn.
  now rewrite !append_assoc.
Qed.

(** ** The client, with a factory of any class *)

Section AnyFactory.
Context {F : Type} `{FurnitureFactory F} (factory : F).

(** X2. [client_code] asks the factory for the chair, then for the sofa,
    prints what [can_sleep] returns, and only then calls the sofa's [can_sit]
    with the chair and prints what it returns: when the four calls return,
    it returns, and the output is the output of the calls with the two
    sentences, each followed by a line feed, at these places. *)
Theorem client_code_runs_in_order
        (out o1 o2 o3 o4 : stdout) (chair : chair_class F)
        (sofa : sofa_class F) (s1 s2 : string) :
  create_chair factory out = (Returns chair, o1) ->
  create_sofa factory o1 = (Returns sofa, o2) ->
  Sofa_can_sleep sofa o2 = (Returns s1, o3) ->
  Sofa_can_sit sofa chair (o3 ++ s1 ++ LF) = (Returns s2, o4) ->
  client_code factory out = (Returns tt, o4 ++ s2 ++ LF).
Proof.
  intros Hc Hs Hsleep Hsit.
  unfold client_code, bind. rewrite Hc, Hs, Hsleep.
  unfold print at 1. now rewrite Hsit.
Qed.

(** X3. When the sofa's [can_sit] raises, [client_code] raises the same
    exception after the first line has been written: the line of [can_sleep]
    stays on the output, and no second line follows. *)
Theorem client_code_keeps_first_line
        (out o1 o2 o3 o4 : stdout) (chair : chair_class F)
        (sofa : sofa_class F) (s1 : string) (e : exn) :
  create_chair factory out = (Returns chair, o1) ->
  create_sofa factory o1 = (Returns sofa, o2) ->
  Sofa_can_sleep sofa o2 = (Returns s1, o3) ->
  Sofa_can_sit sofa chair (o3 ++ s1 ++ LF) = (Raises e, o4) ->
  client_code factory out = (Raises e, o4).
Proof.
  intros Hc Hs Hsleep Hsit.
  unfold client_code, bind. rewrite Hc, Hs, Hsleep.
  unfold print at 1. now rewrite Hsit.
Qed.

(** X4. When [create_chair], [create_sofa] or [can_sleep] raises,
    [client_code] raises the same exception and writes nothing itself: the
    output is as the call that raised left it. *)
Theorem client_code_fails_before_printing
        (out out' : stdout) (e : exn) :
  (create_chair factory out = (Raises e, out') \/
   (exists chair o1,
       create_chair factory out = (Returns chair, o1) /\
       create_sofa factory o1 = (Raises e, out')) \/
   (exists chair o1 sofa o2,
       create_chair factory out = (Returns chair, o1) /\
       create_sofa factory o1 = (Returns sofa, o2) /\
       Sofa_can_sleep sofa o2 = (Raises e, out'))) ->
  client_code factory out = (Raises e, out').
Proof.
  unfold client_code, bind.
  intros [Hc | [(chair & o1 & Hc & Hs) | (chair & o1 & sofa & o2 & Hc & Hs & Hsl)]].
  - now rewrite Hc.
  - now rewrite Hc, Hs.
  - now rewrite Hc, Hs, Hsl.
Qed.

(** X5. With products that return their sentences and write nothing, and
    sentences that hold no line feed, [client_code] writes two lines and no
    more: the sentence of [can_sleep], then the sentence of [can_sit]. *)
Theorem client_code_writes_two_lines
        (chair : chair_class F) (sofa : sofa_class F) (s1 s2 : string) :
  returns (create_chair factory) chair ->
  returns (create_sofa factory) sofa ->
  returns (Sofa_can_sleep sofa) s1 ->
  returns (Sofa_can_sit sofa chair) s2 ->
  contains s1 LF = false ->
  contains s2 LF = false ->
  splitlines (snd (client_code factory "")) = [s1; s2].
Proof.
  intros Hc Hs Hsleep Hsit H1 H2.
  unfold client_code, bind. rewrite Hc, Hs, Hsleep.
  unfold print at 1. rewrite Hsit.
  cbn [print snd append]. unfold splitlines.
  rewrite append_assoc, (lines_from_line s1 "" _ H1).
  replace (s2 ++ LF) with (s2 ++ LF ++ "") by reflexivity.
  rewrite (lines_from_line s2 "" "" H2). reflexivity.
Qed.
End AnyFactory.

Lemma client_code_runs_in_order_witness :
  client_code ModernFuniture.new "" =
    (Returns tt,
     ("" ++ "You can sleep from Modern sofa" ++ LF)
       ++ "You can sit on it from Modern sofa, with collaborator (You can sit on it from Modern Chair)"
       ++ LF).
Proof.
  apply (@client_code_runs_in_order ModernFuniture.t ModernFuniture_Factory
           ModernFuniture.new "" "" "" ""
           ("" ++ "You can sleep from Modern sofa" ++ LF)
           ModernChair.new ModernSofa.new
           "You can sleep from Modern sofa"
           "You can sit on it from Modern sofa, with collaborator (You can sit on it from Modern Chair)");
    reflexivity.
Defined.

Lemma client_code_keeps_first_line_witness :
  @client_code unit broken_chair_furniture tt "" =
    (Raises (Exception "RuntimeError"),
     "" ++ "you can sleep from Classical sofa" ++ LF).
Proof.
  apply (@client_code_keeps_first_line unit broken_chair_furniture tt
           "" "" "" "" ("" ++ "you can sleep from Classical sofa" ++ LF)
           tt ClassicalSofa.new "you can sleep from Classical sofa"
           (Exception "RuntimeError"));
    reflexivity.
Defined.

Lemma client_code_fails_before_printing_witness :
  @client_code unit failing_furniture tt "" =
    (Raises (Exception "RuntimeError"), "").
Proof.
  apply (@client_code_fails_before_printing unit failing_furniture tt
           "" "" (Exception "RuntimeError")).
  left. reflexivity.
Defined.

Lemma client_code_writes_two_lines_witness :
  splitlines (snd (client_code ClassicalFurniture.new "")) =
    [ "you can sleep from Classical sofa";
      "You can sit on it from Classical sofa, with collabortaor (You can sit on it from Classical Chair)" ].
Proof.
  apply (@client_code_writes_two_lines ClassicalFurniture.t
           ClassicalFurniture_Factory ClassicalFurniture.new
           ClassicalChair.new ClassicalSofa.new);
    try reflexivity; intros out; reflexivity.
Defined.

(** ** The sofas' sentences *)

Section AnyCollaborators.
Context {C1 C2 : Type} (I1 : Chair C1) (I2 : Chair C2) (c1 : C1) (c2 : C2).

(** X6. The two sofas never return the same sentence, whatever their
    collaborators: the sentence of a classical sofa starts with "You can sit
    on it from Classical sofa", that of a modern sofa with "You can sit on it
    from Modern sofa". *)
Theorem sofa_sentences_tell_the_sofa
        (classical : ClassicalSofa.t) (modern : ModernSofa.t)
        (out1 out2 : stdout) (s1 s2 : string) :
  fst (ClassicalSofa.can_sit classical c1 out1) = Returns s1 ->
  fst (ModernSofa.can_sit modern c2 out2) = Returns s2 ->
  startswith s1 "You can sit on it from Classical sofa" = true /\
  startswith s2 "You can sit on it from Modern sofa" = true /\
  s1 <> s2.
Proof.
  unfold ClassicalSofa.can_sit, ModernSofa.can_sit, bind, ret.
  destruct (Chair_can_sit c1 out1) as [[r1|e1] o1];
    destruct (Chair_can_sit c2 out2) as [[r2|e2] o2]; cbn [fst];
    intros E1 E2; try discriminate E1; try discriminate E2.
  injection E1 as <-. injection E2 as <-.
  repeat split. cbn. intros E. discriminate E.
Qed.

(** X7. A sofa's sentence tells the sentence of its collaborator: when one
    sofa returns the same sentence with two collaborators, the two
    collaborators have returned the same sentence. *)
Theorem sofa_sentence_tells_the_chair_sentence
        (out1 out2 o1 o2 : stdout) (r1 r2 : string) :
  Chair_can_sit c1 out1 = (Returns r1, o1) ->
  Chair_can_sit c2 out2 = (Returns r2, o2) ->
  (forall sofa : ClassicalSofa.t,
      fst (ClassicalSofa.can_sit sofa c1 out1) =
      fst (ClassicalSofa.can_sit sofa c2 out2) -> r1 = r2) /\
  (forall sofa : ModernSofa.t,
      fst (ModernSofa.can_sit sofa c1 out1) =
      fst (ModernSofa.can_sit sofa c2 out2) -> r1 = r2).
Proof.
  intros H1 H2. split; intros sofa.
  - rewrite (ClassicalSofa_can_sit_returns c1 sofa out1 r1 o1 H1),
            (ClassicalSofa_can_sit_returns c2 sofa out2 r2 o2 H2).
    cbn. intros E. injection E as E. now apply append_inj_r in E.
  - rewrite (ModernSofa_can_sit_returns c1 sofa out1 r1 o1 H1),
            (ModernSofa_can_sit_returns c2 sofa out2 r2 o2 H2).
    cbn. intros E. injection E as E. now apply append_inj_r in E.
Qed.

(** X8. A sofa's [can_sit] does not catch what its collaborator raises: when
    [collaborator.can_sit()] raises, the sofa's [can_sit] raises the same
    exception, and the output is as the collaborator left it. *)
Theorem sofa_can_sit_lets_exceptions_through
        (classical : ClassicalSofa.t) (modern : ModernSofa.t)
        (out out' : stdout) (e : exn) :
  Chair_can_sit c1 out = (Raises e, out') ->
  ClassicalSofa.can_sit classical c1 out = (Raises e, out') /\
  ModernSofa.can_sit modern c1 out = (Raises e, out').
Proof.
  intros Hr. unfold ClassicalSofa.can_sit, ModernSofa.can_sit, bind.
  now rewrite Hr.
Qed.
End AnyCollaborators.

Lemma sofa_sentences_tell_the_sofa_witness :
  startswith
    "You can sit on it from Classical sofa, with collabortaor (You can sit on it from Modern Chair)"
    "You can sit on it from Classical sofa" = true /\
  startswith
    "You can sit on it from Modern sofa, with collaborator (You can sit on it from Modern Chair)"
    "You can sit on it from Modern sofa" = true /\
  "You can sit on it from Classical sofa, with collabortaor (You can sit on it from Modern Chair)"
  <> "You can sit on it from Modern sofa, with collaborator (You can sit on it from Modern Chair)".
Proof.
  apply (sofa_sentences_tell_the_sofa ModernChair_Chair ModernChair_Chair
           ModernChair.new ModernChair.new ClassicalSofa.new ModernSofa.new
           "" "");
    reflexivity.
Defined.

Lemma sofa_sentence_tells_the_chair_sentence_witness :
  (forall sofa : ClassicalSofa.t,
      fst (ClassicalSofa.can_sit sofa ClassicalChair.new "") =
      fst (@ClassicalSofa.can_sit sofa unit another_chair tt "") ->
      "You can sit on it from Classical Chair"
      = "You can sit on it from Classical Chair") /\
  (forall sofa : ModernSofa.t,
      fst (ModernSofa.can_sit sofa ClassicalChair.new "") =
      fst (@ModernSofa.can_sit sofa unit another_chair tt "") ->
      "You can sit on it from Classical Chair"
      = "You can sit on it from Classical Chair").
Proof.
  apply (sofa_sentence_tells_the_chair_sentence ClassicalChair_Chair
           another_chair ClassicalChair.new tt "" "" "" "");
    reflexivity.
Defined.

Lemma sofa_can_sit_lets_exceptions_through_witness :
  @ClassicalSofa.can_sit ClassicalSofa.new unit broken_chair tt "" =
    (Raises (Exception "RuntimeError"), "") /\
  @ModernSofa.can_sit ModernSofa.new unit broken_chair tt "" =
    (Raises (Exception "RuntimeError"), "").
Proof.
  apply (sofa_can_sit_lets_exceptions_through broken_chair tt
           ClassicalSofa.new ModernSofa.new "" "" (Exception "RuntimeError")).
  reflexivity.
Defined.
